(** * FinanceTracker: the financial derivation core of [src/pages/Index.tsx]

    A shallow embedding of the state and the derivations of the [FinanceApp]
    component: the three record collections, the zod form schemas, the
    submit handlers, the running totals, the salary periods and the
    due-payment notifications.

    Conventions.
    - A JavaScript [number] that holds an amount, a rate or a number of hours
      is a binary64 float ([float], the kernel's primitive type): sums and
      products round as they do in the runtime, and NaN, the infinities and
      the two zeros are values like any other.
    - A [Date] is its time value, the milliseconds since the epoch.  The
      functions that depend on the local time zone ([getDate] of the
      runtime, [differenceInDays] of date-fns) are parameters of the
      derivations that call them; [UTC] instantiates them.
    - React state is passed explicitly: a handler maps the store to the next
      store and the toast it shows.  [Date.now()] is an argument.
    - A template literal is the list of its parts ([Text]). *)

From Stdlib Require Import List String Ascii Bool ZArith Floats Lia.
From Stdlib Require Import DecimalString DecimalZ FinFun.
Import ListNotations.

Open Scope string_scope.
Open Scope Z_scope.
Open Scope list_scope.

(** ** Numbers and text *)

(** [x || 0] on an optional number: [undefined], [0], [-0] and [NaN] are
    falsy. *)
Definition orZero (x : option float) : float :=
  match x with
  | Some v => if (v =? 0)%float || is_nan v then 0%float else v
  | None => 0%float
  end.

(** [n.toString()] for an integer [n]. *)
Definition toString (n : Z) : string := NilEmpty.string_of_int (Z.to_int n).

Inductive Piece :=
| Lit (s : string)
| LocaleString (locale : string) (n : float)   (* n.toLocaleString(locale) *)
| NumberText (n : float)                       (* `${n}` *)
| IntText (n : Z).

Definition Text := list Piece.

Definition dquote : string := String (ascii_of_nat 34) EmptyString.

(** ** Dates *)

Record Date := mkDate { getTime : Z }.

Definition msPerDay : Z := 86400000.

(** Days from 1970-01-01 to the civil day [y]-[m]-[d] (proleptic Gregorian). *)
Definition daysFromCivil (y m d : Z) : Z :=
  let y' := if m <=? 2 then y - 1 else y in
  let era := y' / 400 in
  let yoe := y' - era * 400 in
  let mp := (m + 9) mod 12 in
  let doy := (153 * mp + 2) / 5 + d - 1 in
  let doe := yoe * 365 + yoe / 4 - yoe / 100 + doy in
  era * 146097 + doe - 719468.

(** [new Date('YYYY-MM-DD')]: a date-only string is midnight UTC. *)
Definition newDate (y m d : Z) : Date := mkDate (daysFromCivil y m d * msPerDay).

(** ** Entities *)

Inductive TransactionType := income | expense.
Inductive PaymentStatus := pending | paid | overdue.
Inductive PaymentType := recurring | credit | debt.

Definition TransactionType_eqb (a b : TransactionType) : bool :=
  match a, b with
  | income, income | expense, expense => true
  | _, _ => false
  end.

Definition PaymentStatus_eqb (a b : PaymentStatus) : bool :=
  match a, b with
  | pending, pending | paid, paid | overdue, overdue => true
  | _, _ => false
  end.

Module Transaction.
Record t := mk {
  id : string;
  type : TransactionType;
  category : string;
  amount : float;
  description : string;
  date : Date
}.
End Transaction.

Module Payment.
Record t := mk {
  id : string;
  name : string;
  amount : float;
  dueDate : Date;
  status : PaymentStatus;
  type : PaymentType
}.

(** [{ ...payment, status: v }] *)
Definition withStatus (v : PaymentStatus) (p : t) : t :=
  mk (id p) (name p) (amount p) (dueDate p) v (type p).
End Payment.

Module Shift.
Record t := mk {
  id : string;
  date : Date;
  hours : float;
  hourlyRate : float;
  bonus : option float;
  deductions : option float
}.
End Shift.

Definition Transaction := Transaction.t.
Definition Payment := Payment.t.
Definition Shift := Shift.t.

Module Notification.
Inductive kind := info | warning | error.
Record t := mk { id : string; message : Text; type : kind }.
End Notification.

Definition Notification := Notification.t.

Record Toast := mkToast { title : string; description : option Text }.

(** ** The store: the three [useState] collections *)

Record Store := mkStore {
  transactions : list Transaction;
  payments : list Payment;
  shifts : list Shift
}.

Definition seedTransactions : list Transaction :=
  [ Transaction.mk "1" income "Зарплата" 85000%float "Основная зарплата" (newDate 2025 1 15);
    Transaction.mk "2" expense "ЖКХ" 8500%float "Коммунальные услуги" (newDate 2025 1 10);
    Transaction.mk "3" expense "Продукты" 12000%float "Продуктовые покупки" (newDate 2025 1 8);
    Transaction.mk "4" income "Фриланс" 25000%float "Дополнительный доход" (newDate 2025 1 20) ].

Definition seedPayments : list Payment :=
  [ Payment.mk "1" "ЖКХ" 8500%float (newDate 2025 2 10) pending recurring;
    Payment.mk "2" "Кредит банк" 15000%float (newDate 2025 2 5) pending credit;
    Payment.mk "3" "Интернет" 1200%float (newDate 2025 2 1) overdue recurring;
    Payment.mk "4" "Мобильная связь" 800%float (newDate 2025 2 3) paid recurring ].

Definition seedShifts : list Shift :=
  [ Shift.mk "1" (newDate 2025 1 15) 8%float 800%float (Some 2000%float) None;
    Shift.mk "2" (newDate 2025 1 16) 8%float 800%float None None;
    Shift.mk "3" (newDate 2025 1 17) 6%float 800%float None (Some 300%float);
    Shift.mk "4" (newDate 2025 1 18) 8%float 800%float (Some 1000%float) None ].

Definition initialStore : Store := mkStore seedTransactions seedPayments seedShifts.

(** ** Derived figures *)

Definition totalIncome (transactions : list Transaction) : float :=
  fold_left (fun sum t => (sum + Transaction.amount t)%float)
    (filter (fun t => TransactionType_eqb (Transaction.type t) income) transactions)
    0%float.

Definition totalExpenses (transactions : list Transaction) : float :=
  fold_left (fun sum t => (sum + Transaction.amount t)%float)
    (filter (fun t => TransactionType_eqb (Transaction.type t) expense) transactions)
    0%float.

Definition balance (transactions : list Transaction) : float :=
  (totalIncome transactions - totalExpenses transactions)%float.

Definition calculateSalary (shifts : list Shift) : float :=
  fold_left (fun total shift =>
               let base := (Shift.hours shift * Shift.hourlyRate shift)%float in
               let bonus := orZero (Shift.bonus shift) in
               let deductions := orZero (Shift.deductions shift) in
               (total + base + bonus - deductions)%float)
    shifts 0%float.

(** The total shown in a row of the shift table. *)
Definition shiftTotal (shift : Shift) : float :=
  (Shift.hours shift * Shift.hourlyRate shift
   + orZero (Shift.bonus shift) - orZero (Shift.deductions shift))%float.

(** ** Derivations that read the local calendar *)

Section Calendar.

Variable getDate : Date -> Z.
Variable differenceInDays : Date -> Date -> Z.

Definition salaryPeriod1 (shifts : list Shift) : list Shift :=
  filter (fun s => (getDate (Shift.date s) >=? 30) || (getDate (Shift.date s) <=? 14)) shifts.

Definition salaryPeriod2 (shifts : list Shift) : list Shift :=
  filter (fun s => (getDate (Shift.date s) >=? 15) && (getDate (Shift.date s) <=? 29)) shifts.

Definition upcomingPayments (today : Date) (payments : list Payment) : list Payment :=
  filter (fun payment =>
            if PaymentStatus_eqb (Payment.status payment) paid then false
            else
              let daysUntilDue := differenceInDays (Payment.dueDate payment) today in
              (daysUntilDue <=? 3) && (daysUntilDue >=? 0))
    payments.

Definition notificationOf (today : Date) (payment : Payment) : Notification :=
  Notification.mk
    (Payment.id payment)
    [ Lit ("Платеж " ++ dquote)%string; Lit (Payment.name payment);
      Lit (dquote ++ " на сумму ")%string; LocaleString "ru-RU" (Payment.amount payment);
      Lit " ₽ через "; IntText (differenceInDays (Payment.dueDate payment) today);
      Lit " дн." ]
    (if differenceInDays (Payment.dueDate payment) today =? 0
     then Notification.error else Notification.warning).

(** The value passed to [setNotifications] by the effect. *)
Definition checkUpcomingPayments (today : Date) (payments : list Payment) : list Notification :=
  map (notificationOf today) (upcomingPayments today payments).

End Calendar.

(** ** The form schemas (zod) *)

Inductive IssueCode := invalid_type | invalid_enum_value | too_small | invalid_date.

(** [message] is the text given in the schema, [None] for the library's own. *)
Record ZodIssue := mkIssue { path : string; code : IssueCode; message : option string }.

(** What a registered input holds before validation.  A number input
    registered with [valueAsNumber] holds NaN while it is empty. *)
Inductive NumberInput := NumUndefined | NumValue (n : float).
Inductive DateInput := DateUndefined | DateInvalid | DateValue (d : Date).

Definition z_enum {A : Type} (options : list (string * A)) (path : string)
  (v : option string) : ZodIssue + A :=
  match v with
  | None => inl (mkIssue path invalid_type None)
  | Some s =>
      match find (fun o => String.eqb (fst o) s) options with
      | Some o => inr (snd o)
      | None => inl (mkIssue path invalid_enum_value None)
      end
  end.

(** [z.string().min(1, msg)] *)
Definition z_string_min1 (msg path : string) (v : option string) : ZodIssue + string :=
  match v with
  | None => inl (mkIssue path invalid_type None)
  | Some s =>
      if (1 <=? String.length s)%nat then inr s
      else inl (mkIssue path too_small (Some msg))
  end.

(** [z.number().min(1, msg)]: NaN is not a number for zod; the infinities
    are. *)
Definition z_number_min1 (msg path : string) (v : NumberInput) : ZodIssue + float :=
  match v with
  | NumUndefined => inl (mkIssue path invalid_type None)
  | NumValue n =>
      if is_nan n then inl (mkIssue path invalid_type None)
      else if (1 <=? n)%float then inr n
      else inl (mkIssue path too_small (Some msg))
  end.

(** [z.number().optional()] *)
Definition z_number_optional (path : string) (v : NumberInput) : ZodIssue + option float :=
  match v with
  | NumUndefined => inr None
  | NumValue n =>
      if is_nan n then inl (mkIssue path invalid_type None)
      else inr (Some n)
  end.

(** [z.date()] *)
Definition z_date (path : string) (v : DateInput) : ZodIssue + Date :=
  match v with
  | DateUndefined => inl (mkIssue path invalid_type None)
  | DateInvalid => inl (mkIssue path invalid_date None)
  | DateValue d => inr d
  end.

Definition issuesOf {A : Type} (r : ZodIssue + A) : list ZodIssue :=
  match r with
  | inl i => [i]
  | inr _ => []
  end.

Module TransactionInput.
Record t := mk {
  type : option string;
  category : option string;
  amount : NumberInput;
  description : option string;
  date : DateInput
}.
End TransactionInput.

Module TransactionForm.
Record t := mk {
  type : TransactionType;
  category : string;
  amount : float;
  description : string;
  date : Date
}.
End TransactionForm.

Module ShiftInput.
Record t := mk {
  date : DateInput;
  hours : NumberInput;
  hourlyRate : NumberInput;
  bonus : NumberInput;
  deductions : NumberInput
}.
End ShiftInput.

Module ShiftForm.
Record t := mk {
  date : Date;
  hours : float;
  hourlyRate : float;
  bonus : option float;
  deductions : option float
}.
End ShiftForm.

Module PaymentInput.
Record t := mk {
  name : option string;
  amount : NumberInput;
  dueDate : DateInput;
  type : option string
}.
End PaymentInput.

Module PaymentForm.
Record t := mk {
  name : string;
  amount : float;
  dueDate : Date;
  type : PaymentType
}.
End PaymentForm.

Definition transactionSchema (raw : TransactionInput.t) : list ZodIssue + TransactionForm.t :=
  let type := z_enum [("income", income); ("expense", expense)] "type"
                (TransactionInput.type raw) in
  let category := z_string_min1 "Выберите категорию" "category"
                    (TransactionInput.category raw) in
  let amount := z_number_min1 "Сумма должна быть больше 0" "amount"
                  (TransactionInput.amount raw) in
  let description := z_string_min1 "Введите описание" "description"
                       (TransactionInput.description raw) in
  let date := z_date "date" (TransactionInput.date raw) in
  match type, category, amount, description, date with
  | inr ty, inr c, inr a, inr de, inr da => inr (TransactionForm.mk ty c a de da)
  | _, _, _, _, _ =>
      inl (issuesOf type ++ issuesOf category ++ issuesOf amount
           ++ issuesOf description ++ issuesOf date)
  end.

Definition shiftSchema (raw : ShiftInput.t) : list ZodIssue + ShiftForm.t :=
  let date := z_date "date" (ShiftInput.date raw) in
  let hours := z_number_min1 "Часы должны быть больше 0" "hours" (ShiftInput.hours raw) in
  let hourlyRate := z_number_min1 "Ставка должна быть больше 0" "hourlyRate"
                      (ShiftInput.hourlyRate raw) in
  let bonus := z_number_optional "bonus" (ShiftInput.bonus raw) in
  let deductions := z_number_optional "deductions" (ShiftInput.deductions raw) in
  match date, hours, hourlyRate, bonus, deductions with
  | inr da, inr h, inr r, inr b, inr de => inr (ShiftForm.mk da h r b de)
  | _, _, _, _, _ =>
      inl (issuesOf date ++ issuesOf hours ++ issuesOf hourlyRate
           ++ issuesOf bonus ++ issuesOf deductions)
  end.

Definition paymentSchema (raw : PaymentInput.t) : list ZodIssue + PaymentForm.t :=
  let name := z_string_min1 "Введите название" "name" (PaymentInput.name raw) in
  let amount := z_number_min1 "Сумма должна быть больше 0" "amount"
                  (PaymentInput.amount raw) in
  let dueDate := z_date "dueDate" (PaymentInput.dueDate raw) in
  let type := z_enum [("recurring", recurring); ("credit", credit); ("debt", debt)] "type"
                (PaymentInput.type raw) in
  match name, amount, dueDate, type with
  | inr n, inr a, inr d, inr ty => inr (PaymentForm.mk n a d ty)
  | _, _, _, _ =>
      inl (issuesOf name ++ issuesOf amount ++ issuesOf dueDate ++ issuesOf type)
  end.

(** ** The handlers

    [now] is the value of [Date.now()] when the handler runs. *)

Definition addTransaction (now : Z) (data : TransactionForm.t) (s : Store) : Store * Toast :=
  let newTransaction :=
    Transaction.mk (toString now) (TransactionForm.type data) (TransactionForm.category data)
      (TransactionForm.amount data) (TransactionForm.description data)
      (TransactionForm.date data) in
  (mkStore (newTransaction :: transactions s) (payments s) (shifts s),
   mkToast "Операция добавлена!"
     (Some [ Lit (if TransactionType_eqb (TransactionForm.type data) income
                  then "Доход" else "Расход");
             Lit " на сумму "; LocaleString "ru-RU" (TransactionForm.amount data);
             Lit " ₽" ])).

Definition addShift (now : Z) (data : ShiftForm.t) (s : Store) : Store * Toast :=
  let newShift :=
    Shift.mk (toString now) (ShiftForm.date data) (ShiftForm.hours data)
      (ShiftForm.hourlyRate data) (ShiftForm.bonus data) (ShiftForm.deductions data) in
  (mkStore (transactions s) (payments s) (newShift :: shifts s),
   mkToast "Смена добавлена!"
     (Some [ NumberText (ShiftForm.hours data); Lit " часов по ";
             NumberText (ShiftForm.hourlyRate data); Lit " ₽/час" ])).

Definition addPayment (now : Z) (data : PaymentForm.t) (s : Store) : Store * Toast :=
  let newPayment :=
    Payment.mk (toString now) (PaymentForm.name data) (PaymentForm.amount data)
      (PaymentForm.dueDate data) pending (PaymentForm.type data) in
  (mkStore (transactions s) (newPayment :: payments s) (shifts s),
   mkToast "Платеж добавлен!"
     (Some [ Lit (PaymentForm.name data); Lit " на ";
             LocaleString "ru-RU" (PaymentForm.amount data); Lit " ₽" ])).

Definition paidToast : Toast := mkToast "Платеж отмечен как оплаченный!" None.

Definition markPaymentAsPaid (paymentId : string) (s : Store) : Store * Toast :=
  (mkStore (transactions s)
     (map (fun payment =>
             if String.eqb (Payment.id payment) paymentId
             then Payment.withStatus paid payment else payment)
        (payments s))
     (shifts s),
   paidToast).

(** ** What the user can do

    [form.handleSubmit(onSubmit)] runs the resolver first: the handler is
    called with the parsed data, or the issues are shown and the store is
    left alone. *)

Inductive Outcome :=
| Submitted (s : Store) (t : Toast)
| Invalid (errors : list ZodIssue).

Definition handleSubmit {Raw Form : Type} (schema : Raw -> list ZodIssue + Form)
  (onSubmit : Form -> Store -> Store * Toast) (raw : Raw) (s : Store) : Outcome :=
  match schema raw with
  | inr data => let (s', t) := onSubmit data s in Submitted s' t
  | inl errors => Invalid errors
  end.

Inductive Event :=
| SubmitTransaction (now : Z) (raw : TransactionInput.t)
| SubmitShift (now : Z) (raw : ShiftInput.t)
| SubmitPayment (now : Z) (raw : PaymentInput.t)
| ClickMarkPaid (paymentId : string).

Definition dispatch (e : Event) (s : Store) : Outcome :=
  match e with
  | SubmitTransaction now raw => handleSubmit transactionSchema (addTransaction now) raw s
  | SubmitShift now raw => handleSubmit shiftSchema (addShift now) raw s
  | SubmitPayment now raw => handleSubmit paymentSchema (addPayment now) raw s
  | ClickMarkPaid paymentId => let (s', t) := markPaymentAsPaid paymentId s in Submitted s' t
  end.

Definition failed (o : Outcome) : bool :=
  match o with
  | Submitted _ _ => false
  | Invalid _ => true
  end.

Definition storeAfter (s : Store) (o : Outcome) : Store :=
  match o with
  | Submitted s' _ => s'
  | Invalid _ => s
  end.

Definition run (events : list Event) (s : Store) : Store :=
  fold_left (fun s e => storeAfter s (dispatch e s)) events s.

(** ** A host in the UTC time zone *)

Module UTC.

(** Day of the month of the civil day that is [z] days after 1970-01-01. *)
Definition dayOfMonth (z : Z) : Z :=
  let z := z + 719468 in
  let doe := z mod 146097 in
  let yoe := (doe - doe / 1460 + doe / 36524 - doe / 146096) / 365 in
  let doy := doe - (365 * yoe + yoe / 4 - yoe / 100) in
  let mp := (5 * doy + 2) / 153 in
  doy - (153 * mp + 2) / 5 + 1.

Definition getDate (d : Date) : Z := dayOfMonth (getTime d / msPerDay).

(** Full days from [dateRight] to [dateLeft], truncated towards zero. *)
Definition differenceInDays (dateLeft dateRight : Date) : Z :=
  Z.quot (getTime dateLeft - getTime dateRight) msPerDay.

End UTC.

(** ** Reference definitions, after the wording of the specification *)

Definition TransactionType_eq_dec (a b : TransactionType) : {a = b} + {a <> b}.
Proof. decide equality. Defined.

(** The running total of the amounts of one kind: the transactions are
    taken in the order of the collection and each amount of that kind is
    added to the total so far. *)
Fixpoint runningTotal (sofar : float) (transactions : list Transaction)
  (kind : TransactionType) : float :=
  match transactions with
  | [] => sofar
  | t :: rest =>
      runningTotal
        (if TransactionType_eq_dec (Transaction.type t) kind
         then (sofar + Transaction.amount t)%float else sofar)
        rest kind
  end.

(** [totalByKind]: the sum of the amounts of the transactions of one kind,
    added up from 0 in the order of the collection. *)
Definition totalByKind (transactions : list Transaction) (kind : TransactionType) : float :=
  runningTotal 0%float transactions kind.

(** The sum of a list of numbers, added up from 0 in the order of the list. *)
Definition sumOf (l : list float) : float :=
  fold_left (fun sum x => (sum + x)%float) l 0%float.

(** [x ?? d]: the value when present, the default when absent. *)
Definition withDefault (x : option float) (d : float) : float :=
  match x with
  | Some v => v
  | None => d
  end.

(** A bonus or a deduction on which [x || 0] and [x ?? 0] agree: absent, or
    a number that is neither NaN nor the negative zero. *)
Definition plain (x : option float) : Prop :=
  match x with
  | Some v => is_nan v = false /\ v <> (-0)%float
  | None => True
  end.

(** ** Vocabulary for runs of events *)

Inductive Collection := Transactions | Payments | Shifts.

Definition Collection_eqb (a b : Collection) : bool :=
  match a, b with
  | Transactions, Transactions | Payments, Payments | Shifts, Shifts => true
  | _, _ => false
  end.

Definition ids (c : Collection) (s : Store) : list string :=
  match c with
  | Transactions => map Transaction.id (transactions s)
  | Payments => map Payment.id (payments s)
  | Shifts => map Shift.id (shifts s)
  end.

Definition accepted {A : Type} (r : list ZodIssue + A) : bool :=
  match r with
  | inr _ => true
  | inl _ => false
  end.

(** The collection an event adds a record to, with the clock reading the
    record's id is made from; [None] when the event adds nothing. *)
Definition addedTo (e : Event) : option (Collection * Z) :=
  match e with
  | SubmitTransaction now raw =>
      if accepted (transactionSchema raw) then Some (Transactions, now) else None
  | SubmitShift now raw =>
      if accepted (shiftSchema raw) then Some (Shifts, now) else None
  | SubmitPayment now raw =>
      if accepted (paymentSchema raw) then Some (Payments, now) else None
  | ClickMarkPaid _ => None
  end.

(** The clock readings of the records added to [c], oldest first. *)
Definition clocks (c : Collection) (events : list Event) : list Z :=
  flat_map (fun e =>
              match addedTo e with
              | Some (c', now) => if Collection_eqb c c' then [now] else []
              | None => []
              end)
    events.

Definition seedIds : list Z := [1; 2; 3; 4].

(** What [markPaymentAsPaid] does to one payment. *)
Definition markOne (paymentId : string) (payment : Payment) : Payment :=
  if String.eqb (Payment.id payment) paymentId
  then Payment.withStatus paid payment else payment.

(** ** Sample inputs *)

Definition half : float := 0.5%float.

Definition coffee (amount : float) : TransactionInput.t :=
  TransactionInput.mk (Some "expense") (Some "food") (NumValue amount)
    (Some "coffee") (DateValue (newDate 2025 1 21)).

Definition rent : PaymentInput.t :=
  PaymentInput.mk (Some "rent") (NumValue 30000%float)
    (DateValue (newDate 2025 3 1)) (Some "recurring").

(** Two shifts of one hour at rate 1, with bonuses 0.1 and 0.2. *)
Definition tenth : float := 0x1.999999999999ap-4%float.
Definition fifth : float := 0x1.999999999999ap-3%float.

Definition smallShifts : list Shift :=
  [ Shift.mk "5" (newDate 2025 1 21) 1%float 1%float (Some tenth) None;
    Shift.mk "6" (newDate 2025 1 22) 1%float 1%float (Some fifth) None ].

(** What [z.number().optional()] makes of an input: absent stays absent, a
    number other than NaN is kept. *)
Definition optionalNumber (v : NumberInput) (o : option float) : Prop :=
  (v = NumUndefined /\ o = None)
  \/ (exists n : float, v = NumValue n /\ is_nan n = false /\ o = Some n).

Definition nightShift (bonus : NumberInput) : ShiftInput.t :=
  ShiftInput.mk (DateValue (newDate 2025 1 30)) (NumValue 8%float) (NumValue 800%float)
    bonus NumUndefined.

Definition seedPayment3 : Payment :=
  Payment.mk "3" "Интернет" 1200%float (newDate 2025 2 1) overdue recurring.


(** * Properties *)

(** ** Arithmetic helpers *)

Lemma TransactionType_eqb_eq (a b : TransactionType) :
  TransactionType_eqb a b = true <-> a = b.
Proof. destruct a, b; simpl; split; intro H; congruence. Qed.

(** The only numbers equal to 0 are the two zeros. *)
Lemma eqb_zero_cases (v : float) :
  (v =? 0)%float = true -> v = 0%float \/ v = (-0)%float.
Proof.
  intro H. rewrite FloatAxioms.eqb_spec in H.
  change (Prim2SF 0%float) with (S754_zero false) in H.
  destruct (Prim2SF v) as [sg|sg| |sg m e] eqn:E; simpl in H;
    try discriminate; try (destruct sg; discriminate).
  rewrite <- (SF2Prim_Prim2SF v), E. destruct sg; [right|left]; reflexivity.
Qed.

(** A number that is at most 0 is not at least 1. *)
Lemma leb_nonpositive (a : float) :
  (a <=? 0)%float = true -> (1 <=? a)%float = false.
Proof.
  rewrite !FloatAxioms.leb_spec.
  change (Prim2SF 0%float) with (S754_zero false).
  change (Prim2SF 1%float) with (S754_finite false 4503599627370496 (-52)).
  destruct (Prim2SF a) as [sg|sg| |sg m e]; simpl;
    try reflexivity; try discriminate;
    destruct sg; try reflexivity; discriminate.
Qed.

(** Adding to 0 changes nothing, except that it turns -0 into 0. *)
Lemma add_0_l (x : float) : x <> (-0)%float -> (0 + x)%float = x.
Proof.
  intro H. apply Prim2SF_inj. rewrite FloatAxioms.add_spec.
  change (Prim2SF 0%float) with (S754_zero false).
  destruct (Prim2SF x) as [sg|sg| |sg m e] eqn:E; try reflexivity.
  destruct sg; [|reflexivity]. exfalso. apply H.
  rewrite <- (SF2Prim_Prim2SF x), E. reflexivity.
Qed.

Lemma orZero_plain (x : option float) :
  plain x -> orZero x = withDefault x 0%float.
Proof.
  destruct x as [v|]; simpl; [|reflexivity].
  intros [Hnan Hneg]. rewrite Hnan, orb_false_r.
  destruct (v =? 0)%float eqn:E; [|reflexivity].
  destruct (eqb_zero_cases v E) as [->| ->]; [reflexivity | now elim Hneg].
Qed.

Lemma fold_filter_runningTotal (kind : TransactionType) (l : list Transaction) (a : float) :
  fold_left (fun sum t => (sum + Transaction.amount t)%float)
    (filter (fun t => TransactionType_eqb (Transaction.type t) kind) l) a
  = runningTotal a l kind.
Proof.
  revert a. induction l as [|t l IH]; intro a; simpl; [reflexivity|].
  destruct (TransactionType_eq_dec (Transaction.type t) kind) as [E|E].
  - apply TransactionType_eqb_eq in E. rewrite E. simpl. apply IH.
  - destruct (TransactionType_eqb (Transaction.type t) kind) eqn:B.
    + apply TransactionType_eqb_eq in B. contradiction.
    + apply IH.
Qed.

(** The running total reads the collection from its first element to its
    last. *)
Lemma totalByKind_snoc (T : list Transaction) (t : Transaction) (kind : TransactionType) :
  totalByKind (T ++ [t]) kind
  = if TransactionType_eq_dec (Transaction.type t) kind
    then (totalByKind T kind + Transaction.amount t)%float
    else totalByKind T kind.
Proof.
  unfold totalByKind. generalize 0%float as a.
  induction T as [|u T IH]; intro a; simpl; [reflexivity|]. apply IH.
Qed.

Lemma totalIncome_totalByKind (T : list Transaction) :
  totalIncome T = totalByKind T income.
Proof. apply fold_filter_runningTotal. Qed.

Lemma totalExpenses_totalByKind (T : list Transaction) :
  totalExpenses T = totalByKind T expense.
Proof. apply fold_filter_runningTotal. Qed.

(** ** Totals and balance *)

(** C3: for every list of transactions [T], the balance is the total of the
    income transactions minus the total of the expense transactions, each
    total being the sum of the amounts of the transactions of that kind,
    added up from 0 in the order of the list; the two sides are the same
    number, and compare equal whenever the balance is not NaN; on the empty
    list the balance and both totals are 0. *)
Theorem C3_balance_totalByKind :
  (forall T : list Transaction,
      totalIncome T = totalByKind T income
      /\ totalExpenses T = totalByKind T expense
      /\ balance T = (totalByKind T income - totalByKind T expense)%float
      /\ (is_nan (balance T) = false ->
          (balance T =? totalByKind T income - totalByKind T expense)%float = true))
  /\ balance [] = 0%float
  /\ totalIncome [] = 0%float
  /\ totalExpenses [] = 0%float.
Proof.
  split; [|repeat split; reflexivity].
  intro T. unfold balance.
  rewrite totalIncome_totalByKind, totalExpenses_totalByKind.
  repeat split. unfold is_nan. intro H. now apply negb_false_iff in H.
Qed.

Example balance_seed : balance seedTransactions = 89500%float.
Proof. reflexivity. Qed.

(** ** Shift totals and salary *)

Lemma shiftTotal_formula (s : Shift) :
  plain (Shift.bonus s) -> plain (Shift.deductions s) ->
  shiftTotal s
  = (Shift.hours s * Shift.hourlyRate s
     + withDefault (Shift.bonus s) 0 - withDefault (Shift.deductions s) 0)%float.
Proof. intros Hb Hd. unfold shiftTotal. now rewrite !orZero_plain. Qed.

(** A bonus that is NaN counts as 0 in the row total, where a default for
    an absent bonus would leave it NaN. *)
Example shiftTotal_nan_bonus :
  shiftTotal (Shift.mk "7" (newDate 2025 1 23) 8%float 800%float (Some nan) None)
  = 6400%float
  /\ (8 * 800 + withDefault (Some nan) 0 - withDefault None 0)%float = nan.
Proof. split; reflexivity. Qed.

Lemma calculateSalary_snoc (shifts : list Shift) (s : Shift) :
  calculateSalary (shifts ++ [s])
  = (calculateSalary shifts + Shift.hours s * Shift.hourlyRate s
     + orZero (Shift.bonus s) - orZero (Shift.deductions s))%float.
Proof. unfold calculateSalary. now rewrite fold_left_app. Qed.

(** C4, as the code has it: the total of a shift is hours * hourlyRate plus
    the bonus (0 when absent) minus the deductions (0 when absent), for a
    bonus and deductions that are not NaN or -0, which the code turns into
    0 as well; 8 hours at 800 with a bonus of 2000 total 8400, 6 hours at
    800 with deductions of 300 total 4500; the salary of the empty list is
    0, the salary of a list is built up shift by shift in the order of the
    list, as ((salary so far + hours * hourlyRate) + bonus) - deductions,
    and the salary of a single shift is its total. *)
Theorem C4_shift_total_and_salary :
  (forall s : Shift,
      plain (Shift.bonus s) -> plain (Shift.deductions s) ->
      shiftTotal s
      = (Shift.hours s * Shift.hourlyRate s
         + withDefault (Shift.bonus s) 0 - withDefault (Shift.deductions s) 0)%float)
  /\ (forall id date,
         shiftTotal (Shift.mk id date 8%float 800%float (Some 2000%float) None)
         = 8400%float)
  /\ (forall id date,
         shiftTotal (Shift.mk id date 6%float 800%float None (Some 300%float))
         = 4500%float)
  /\ calculateSalary [] = 0%float
  /\ (forall (shifts : list Shift) (s : Shift),
         calculateSalary (shifts ++ [s])
         = (calculateSalary shifts + Shift.hours s * Shift.hourlyRate s
            + orZero (Shift.bonus s) - orZero (Shift.deductions s))%float)
  /\ (forall s : Shift,
         (Shift.hours s * Shift.hourlyRate s)%float <> (-0)%float ->
         calculateSalary [s] = shiftTotal s).
Proof.
  split; [exact shiftTotal_formula|].
  split; [intros; reflexivity|].
  split; [intros; reflexivity|].
  split; [reflexivity|].
  split; [exact calculateSalary_snoc|].
  intros s H. unfold calculateSalary, shiftTotal. simpl. now rewrite add_0_l.
Qed.

(** C4, the refused part: with bonuses of 0.1 and 0.2 on two shifts of one
    hour at rate 1, the salary is 2.3000000000000003 while the two totals,
    1.1 and 1.2, add up to 2.2999999999999998. *)
Lemma C4_salary_differs_from_sum_of_totals :
  calculateSalary smallShifts = 0x1.2666666666667p+1%float
  /\ sumOf (map shiftTotal smallShifts) = 0x1.2666666666666p+1%float
  /\ calculateSalary smallShifts <> sumOf (map shiftTotal smallShifts).
Proof.
  split; [reflexivity|]. split; [reflexivity|].
  intro H. vm_compute in H. discriminate H.
Qed.

Example salary_seed :
  calculateSalary (salaryPeriod2 UTC.getDate seedShifts) = 26700%float
  /\ calculateSalary (salaryPeriod1 UTC.getDate seedShifts) = 0%float.
Proof. split; reflexivity. Qed.

(** ** Salary periods and due-payment notifications *)

Lemma PaymentStatus_eqb_eq (a b : PaymentStatus) : PaymentStatus_eqb a b = true <-> a = b.
Proof. destruct a, b; simpl; split; intro H; congruence. Qed.

Section CalendarFacts.

Variable getDate : Date -> Z.
Variable differenceInDays : Date -> Date -> Z.

Lemma salaryPeriod1_In (shifts : list Shift) (s : Shift) :
  In s (salaryPeriod1 getDate shifts)
  <-> In s shifts /\ (30 <= getDate (Shift.date s) \/ getDate (Shift.date s) <= 14).
Proof.
  unfold salaryPeriod1. rewrite filter_In, orb_true_iff, Z.geb_le, Z.leb_le. tauto.
Qed.

Lemma salaryPeriod2_In (shifts : list Shift) (s : Shift) :
  In s (salaryPeriod2 getDate shifts)
  <-> In s shifts /\ 15 <= getDate (Shift.date s) <= 29.
Proof.
  unfold salaryPeriod2. rewrite filter_In, andb_true_iff, Z.geb_le, Z.leb_le. tauto.
Qed.

(** C1: a shift is in period 1 exactly when the day of the month of its date
    is at least 30 or at most 14, and in period 2 exactly when that day is
    between 15 and 29; day 14 falls in period 1, day 15 in period 2, day 30
    in period 1, and a shift on any day from 1 to 31 is in exactly one of
    the two periods. *)
Theorem C1_salary_period_classifier :
  forall (shifts : list Shift) (s : Shift),
    (In s (salaryPeriod1 getDate shifts)
     <-> In s shifts /\ (30 <= getDate (Shift.date s) \/ getDate (Shift.date s) <= 14))
    /\ (In s (salaryPeriod2 getDate shifts)
        <-> In s shifts /\ 15 <= getDate (Shift.date s) <= 29)
    /\ (In s shifts /\ getDate (Shift.date s) = 14 ->
        In s (salaryPeriod1 getDate shifts) /\ ~ In s (salaryPeriod2 getDate shifts))
    /\ (In s shifts /\ getDate (Shift.date s) = 15 ->
        In s (salaryPeriod2 getDate shifts) /\ ~ In s (salaryPeriod1 getDate shifts))
    /\ (In s shifts /\ getDate (Shift.date s) = 30 ->
        In s (salaryPeriod1 getDate shifts) /\ ~ In s (salaryPeriod2 getDate shifts))
    /\ (In s shifts /\ 1 <= getDate (Shift.date s) <= 31 ->
        (In s (salaryPeriod1 getDate shifts) /\ ~ In s (salaryPeriod2 getDate shifts))
        \/ (In s (salaryPeriod2 getDate shifts) /\ ~ In s (salaryPeriod1 getDate shifts))).
Proof.
  intros shifts s.
  rewrite salaryPeriod1_In, salaryPeriod2_In.
  split; [tauto|]. split; [tauto|].
  do 3 (split; [intuition lia|]).
  intros [Hin Hd].
  destruct (Z_le_gt_dec (getDate (Shift.date s)) 14) as [Hlow|Hlow];
    [left; intuition lia|].
  destruct (Z_le_gt_dec 30 (getDate (Shift.date s))) as [Hhigh|Hhigh];
    [left | right]; intuition lia.
Qed.

(** The filter and the map keep the order of the payments. *)
Lemma checkUpcomingPayments_app (today : Date) (l1 l2 : list Payment) :
  checkUpcomingPayments differenceInDays today (l1 ++ l2)
  = checkUpcomingPayments differenceInDays today l1
    ++ checkUpcomingPayments differenceInDays today l2.
Proof.
  unfold checkUpcomingPayments, upcomingPayments.
  now rewrite filter_app, map_app.
Qed.

Lemma upcomingPayments_In (today : Date) (payments : list Payment) (p : Payment) :
  In p (upcomingPayments differenceInDays today payments)
  <-> In p payments /\ Payment.status p <> paid
      /\ 0 <= differenceInDays (Payment.dueDate p) today <= 3.
Proof.
  unfold upcomingPayments. rewrite filter_In.
  destruct (PaymentStatus_eqb (Payment.status p) paid) eqn:E.
  - apply PaymentStatus_eqb_eq in E. split; [intros [_ H]; discriminate | tauto].
  - assert (Payment.status p <> paid) as Hne.
    { intro H. apply PaymentStatus_eqb_eq in H. congruence. }
    rewrite andb_true_iff. split; [intros [Hin [Ha Hb]] | intros [Hin [_ Hd]]];
      repeat split; trivial; lia.
Qed.

(** C2: for every payment collection and reference date, a notification is
    produced for a payment exactly when the payment is not paid and its
    number of days until due is between 0 and 3; the notification carries
    the payment's id, is of type error (critical) when the number of days
    is 0 and of type warning otherwise; the notifications come in the
    order of the payments. *)
Theorem C2_due_payment_notifier :
  forall (today : Date) (payments : list Payment),
    (forall n : Notification,
        In n (checkUpcomingPayments differenceInDays today payments)
        <-> exists p, In p payments
                      /\ Payment.status p <> paid
                      /\ 0 <= differenceInDays (Payment.dueDate p) today <= 3
                      /\ n = notificationOf differenceInDays today p)
    /\ (forall p : Payment,
           Notification.id (notificationOf differenceInDays today p) = Payment.id p
           /\ (differenceInDays (Payment.dueDate p) today = 0 ->
               Notification.type (notificationOf differenceInDays today p)
               = Notification.error)
           /\ (differenceInDays (Payment.dueDate p) today <> 0 ->
               Notification.type (notificationOf differenceInDays today p)
               = Notification.warning))
    /\ (forall p : Payment,
           checkUpcomingPayments differenceInDays today [p]
           = if negb (PaymentStatus_eqb (Payment.status p) paid)
                && (0 <=? differenceInDays (Payment.dueDate p) today)
                && (differenceInDays (Payment.dueDate p) today <=? 3)
             then [notificationOf differenceInDays today p] else [])
    /\ (forall l1 l2 : list Payment,
           payments = l1 ++ l2 ->
           checkUpcomingPayments differenceInDays today payments
           = checkUpcomingPayments differenceInDays today l1
             ++ checkUpcomingPayments differenceInDays today l2).
Proof.
  intros today payments.
  split; [|split; [|split]].
  - intro n. unfold checkUpcomingPayments. rewrite in_map_iff. split.
    + intros [p [Hn Hp]]. apply upcomingPayments_In in Hp.
      exists p. intuition.
    + intros [p [Hin [Hs [Hd Hn]]]]. exists p. split; [now symmetry|].
      apply upcomingPayments_In. auto.
  - intro p. split; [reflexivity|]. split; intro Hd; simpl.
    + now rewrite Hd.
    + apply Z.eqb_neq in Hd. now rewrite Hd.
  - intro p. unfold checkUpcomingPayments, upcomingPayments. simpl.
    destruct (PaymentStatus_eqb (Payment.status p) paid); simpl; [reflexivity|].
    rewrite Z.geb_leb.
    destruct (0 <=? differenceInDays (Payment.dueDate p) today);
      destruct (differenceInDays (Payment.dueDate p) today <=? 3); reflexivity.
  - intros l1 l2 ->. apply checkUpcomingPayments_app.
Qed.

End CalendarFacts.

(** On the seed data with today = 2025-02-01 .. 2025-02-03, in UTC. *)
Example notifications_seed :
  map (fun n => (Notification.id n, Notification.type n))
    (checkUpcomingPayments UTC.differenceInDays (newDate 2025 2 1) seedPayments)
  = [("3", Notification.error)]
  /\ map (fun n => (Notification.id n, Notification.type n))
       (checkUpcomingPayments UTC.differenceInDays (newDate 2025 2 2) seedPayments)
     = [("2", Notification.warning)]
  /\ map (fun n => (Notification.id n, Notification.type n))
       (checkUpcomingPayments UTC.differenceInDays (newDate 2025 2 7) seedPayments)
     = [("1", Notification.warning)]
  /\ checkUpcomingPayments UTC.differenceInDays (newDate 2025 2 11) seedPayments = [].
Proof. repeat split; vm_compute; reflexivity. Qed.

(** ** Validation *)

Lemma z_string_min1_inr (msg path : string) (v : option string) (s : string) :
  z_string_min1 msg path v = inr s <-> v = Some s /\ s <> "".
Proof.
  unfold z_string_min1. destruct v as [x|]; [|split; [discriminate | intros [H _]; discriminate]].
  destruct x as [|c x]; simpl.
  - split; [discriminate | intros [H Hne]; injection H as <-; now elim Hne].
  - split; [intro H; injection H as <-; split; [reflexivity|discriminate]
           | intros [H _]; injection H as <-; reflexivity].
Qed.

Lemma z_number_min1_inr (msg path : string) (v : NumberInput) (n : float) :
  z_number_min1 msg path v = inr n
  <-> v = NumValue n /\ is_nan n = false /\ (1 <=? n)%float = true.
Proof.
  unfold z_number_min1. destruct v as [|x]; [split; [discriminate | intros [H _]; discriminate]|].
  destruct (is_nan x) eqn:N.
  - split; [discriminate|]. intros (H & Hn & _). injection H as <-. congruence.
  - destruct (1 <=? x)%float eqn:E.
    + split; [intro H; injection H as <-; auto
             | intros [H _]; injection H as <-; reflexivity].
    + split; [discriminate|]. intros (H & _ & Hle). injection H as <-. congruence.
Qed.

Lemma z_date_inr (path : string) (v : DateInput) (d : Date) :
  z_date path v = inr d <-> v = DateValue d.
Proof.
  destruct v; simpl; split; intro H; try discriminate; injection H as <-; reflexivity.
Qed.

Lemma transactionType_enum_inr (v : option string) (ty : TransactionType) :
  z_enum [("income", income); ("expense", expense)] "type" v = inr ty
  <-> (v = Some "income" /\ ty = income) \/ (v = Some "expense" /\ ty = expense).
Proof.
  unfold z_enum. destruct v as [s|]; [|split; [discriminate | intros [[H _]|[H _]]; discriminate]].
  cbn [find fst snd].
  destruct (String.eqb_spec "income" s) as [Ei|Hi]; [subst s|].
  - split; [intro H; injection H as <-; auto|].
    intros [[_ ->]|[H _]]; [reflexivity | discriminate].
  - destruct (String.eqb_spec "expense" s) as [Ee|He]; [subst s|].
    + split; [intro H; injection H as <-; auto|].
      intros [[H _]|[_ ->]]; [discriminate | reflexivity].
    + split; [discriminate|].
      intros [[H _]|[H _]]; congruence.
Qed.

(** What [transactionSchema] accepts, field by field. *)
Lemma transactionSchema_inr (raw : TransactionInput.t) (data : TransactionForm.t) :
  transactionSchema raw = inr data
  <-> ((TransactionInput.type raw = Some "income" /\ TransactionForm.type data = income)
       \/ (TransactionInput.type raw = Some "expense" /\ TransactionForm.type data = expense))
      /\ (TransactionInput.category raw = Some (TransactionForm.category data)
          /\ TransactionForm.category data <> "")
      /\ (TransactionInput.amount raw = NumValue (TransactionForm.amount data)
          /\ is_nan (TransactionForm.amount data) = false
          /\ (1 <=? TransactionForm.amount data)%float = true)
      /\ (TransactionInput.description raw = Some (TransactionForm.description data)
          /\ TransactionForm.description data <> "")
      /\ TransactionInput.date raw = DateValue (TransactionForm.date data).
Proof.
  rewrite <- transactionType_enum_inr.
  rewrite <- (z_string_min1_inr "Выберите категорию" "category").
  rewrite <- (z_number_min1_inr "Сумма должна быть больше 0" "amount").
  rewrite <- (z_string_min1_inr "Введите описание" "description").
  rewrite <- (z_date_inr "date").
  unfold transactionSchema. destruct data as [ty c a de da]. simpl.
  destruct (z_enum _ "type" _), (z_string_min1 _ "category" _),
    (z_number_min1 _ "amount" _), (z_string_min1 _ "description" _),
    (z_date "date" _);
    (split; [intro H; try discriminate; injection H as <- <- <- <- <-; auto
            | intros (H1 & H2 & H3 & H4 & H5); try discriminate; congruence]).
Qed.

(** A rejection always names at least one field. *)
Lemma transactionSchema_inl (raw : TransactionInput.t) (errors : list ZodIssue) :
  transactionSchema raw = inl errors -> errors <> [].
Proof.
  unfold transactionSchema.
  destruct (z_enum _ "type" _), (z_string_min1 _ "category" _),
    (z_number_min1 _ "amount" _), (z_string_min1 _ "description" _),
    (z_date "date" _);
    intro H; try discriminate; injection H as <-; simpl; discriminate.
Qed.

(** ** Submitting a transaction *)

Lemma submitTransaction_accepted (now : Z) (raw : TransactionInput.t)
  (data : TransactionForm.t) (s : Store) :
  transactionSchema raw = inr data ->
  dispatch (SubmitTransaction now raw) s
  = Submitted (fst (addTransaction now data s)) (snd (addTransaction now data s))
    /\ transactions (storeAfter s (dispatch (SubmitTransaction now raw) s))
       = Transaction.mk (toString now) (TransactionForm.type data)
           (TransactionForm.category data) (TransactionForm.amount data)
           (TransactionForm.description data) (TransactionForm.date data)
         :: transactions s.
Proof.
  intro H. unfold dispatch, handleSubmit. rewrite H. simpl. auto.
Qed.

Lemma submitTransaction_rejected (now : Z) (raw : TransactionInput.t)
  (errors : list ZodIssue) (s : Store) :
  transactionSchema raw = inl errors ->
  dispatch (SubmitTransaction now raw) s = Invalid errors
  /\ storeAfter s (dispatch (SubmitTransaction now raw) s) = s.
Proof.
  intro H. unfold dispatch, handleSubmit. rewrite H. simpl. auto.
Qed.

(** An amount of 0 or less never passes. *)
Lemma nonpositive_amount_rejected (now : Z) (raw : TransactionInput.t) (a : float) (s : Store) :
  TransactionInput.amount raw = NumValue a -> (a <=? 0)%float = true ->
  failed (dispatch (SubmitTransaction now raw) s) = true
  /\ storeAfter s (dispatch (SubmitTransaction now raw) s) = s.
Proof.
  intros Ha Hle.
  destruct (transactionSchema raw) as [errors|data] eqn:E.
  - destruct (submitTransaction_rejected now raw errors s E) as [-> _]. auto.
  - apply transactionSchema_inr in E. destruct E as (_ & _ & (Hv & _ & H1) & _).
    rewrite Ha in Hv. injection Hv as ->.
    apply leb_nonpositive in Hle. congruence.
Qed.

Lemma nonpositive_amount_rejected_witness :
  TransactionInput.amount (coffee (-5)%float) = NumValue (-5)%float
  /\ ((-5) <=? 0)%float = true
  /\ failed (dispatch (SubmitTransaction 1738000000000 (coffee (-5)%float)) initialStore)
     = true.
Proof.
  split; [reflexivity|]. split; [reflexivity|].
  exact (proj1 (nonpositive_amount_rejected 1738000000000 (coffee (-5)%float) (-5)%float
                  initialStore eq_refl eq_refl)).
Defined.

(** An amount of 1 with every field present is stored first. *)
Lemma amount_one_accepted (now : Z) (s : Store) :
  failed (dispatch (SubmitTransaction now (coffee 1%float)) s) = false
  /\ transactions (storeAfter s (dispatch (SubmitTransaction now (coffee 1%float)) s))
     = Transaction.mk (toString now) expense "food" 1%float "coffee" (newDate 2025 1 21)
       :: transactions s
  /\ payments (storeAfter s (dispatch (SubmitTransaction now (coffee 1%float)) s))
     = payments s
  /\ shifts (storeAfter s (dispatch (SubmitTransaction now (coffee 1%float)) s))
     = shifts s.
Proof. repeat split. Qed.

(** C5: the claim holds that any amount above 0 passes validation; the
    schema asks for an amount of at least 1, so a transaction of half a
    unit, although positive and complete, is turned down with the message
    that the amount must be greater than 0, and nothing is stored. *)
Theorem C5_positive_amount_below_one_rejected :
  (0 <? half)%float = true
  /\ (forall (now : Z) (s : Store),
         dispatch (SubmitTransaction now (coffee half)) s
         = Invalid [mkIssue "amount" too_small (Some "Сумма должна быть больше 0")]
         /\ storeAfter s (dispatch (SubmitTransaction now (coffee half)) s) = s).
Proof.
  split; [reflexivity|]. intros now s. split; reflexivity.
Qed.

(** ** Marking a payment as paid *)

Lemma withStatus_paid_id (p : Payment) :
  Payment.status p = paid -> Payment.withStatus paid p = p.
Proof. destruct p; simpl; intros ->; reflexivity. Qed.

Lemma markOne_paid (paymentId : string) (p : Payment) :
  Payment.status p = paid -> markOne paymentId p = p.
Proof.
  intro H. unfold markOne. destruct (String.eqb _ _); [now apply withStatus_paid_id | reflexivity].
Qed.

Lemma markOne_other (paymentId : string) (p : Payment) :
  Payment.id p <> paymentId -> markOne paymentId p = p.
Proof.
  intro H. unfold markOne. destruct (String.eqb_spec (Payment.id p) paymentId); congruence.
Qed.

Lemma markOne_idem (paymentId : string) (p : Payment) :
  markOne paymentId (markOne paymentId p) = markOne paymentId p.
Proof.
  unfold markOne at 2 3. destruct (String.eqb (Payment.id p) paymentId) eqn:E.
  - now apply markOne_paid.
  - unfold markOne. now rewrite E.
Qed.

Lemma markPaymentAsPaid_payments (paymentId : string) (s : Store) :
  payments (fst (markPaymentAsPaid paymentId s)) = map (markOne paymentId) (payments s).
Proof. reflexivity. Qed.

Lemma map_markOne_fixed (paymentId : string) (l : list Payment) :
  (forall p, In p l -> Payment.id p = paymentId -> Payment.status p = paid) ->
  map (markOne paymentId) l = l.
Proof.
  intro H. rewrite <- (map_id l) at 2. apply map_ext_in. intros p Hp.
  destruct (String.eqb_spec (Payment.id p) paymentId) as [E|E].
  - apply markOne_paid. auto.
  - now apply markOne_other.
Qed.

(** C10: marking a payment as paid leaves the transactions and the shifts
    as they are and keeps every payment at its position; a payment with
    another id, or one that is already paid, is unchanged; a payment with
    the given id differs at most in its status, which becomes paid; marking
    twice gives the same state as marking once, and when every payment with
    that id is already paid the state does not change at all. *)
Theorem C10_markPaymentAsPaid_frame :
  forall (paymentId : string) (s : Store),
    transactions (fst (markPaymentAsPaid paymentId s)) = transactions s
    /\ shifts (fst (markPaymentAsPaid paymentId s)) = shifts s
    /\ List.length (payments (fst (markPaymentAsPaid paymentId s)))
       = List.length (payments s)
    /\ (forall (i : nat) (p : Payment),
           nth_error (payments s) i = Some p ->
           exists p',
             nth_error (payments (fst (markPaymentAsPaid paymentId s))) i = Some p'
             /\ Payment.id p' = Payment.id p
             /\ Payment.name p' = Payment.name p
             /\ Payment.amount p' = Payment.amount p
             /\ Payment.dueDate p' = Payment.dueDate p
             /\ Payment.type p' = Payment.type p
             /\ (Payment.id p = paymentId -> Payment.status p' = paid)
             /\ (Payment.id p <> paymentId -> p' = p)
             /\ (Payment.status p = paid -> p' = p))
    /\ markPaymentAsPaid paymentId (fst (markPaymentAsPaid paymentId s))
       = markPaymentAsPaid paymentId s
    /\ ((forall p, In p (payments s) -> Payment.id p = paymentId -> Payment.status p = paid) ->
        fst (markPaymentAsPaid paymentId s) = s).
Proof.
  intros paymentId s.
  split; [reflexivity|]. split; [reflexivity|].
  split; [rewrite markPaymentAsPaid_payments; apply length_map|].
  split; [|split].
  - intros i p Hp. exists (markOne paymentId p).
    rewrite markPaymentAsPaid_payments, nth_error_map, Hp.
    split; [reflexivity|].
    unfold markOne.
    destruct (String.eqb_spec (Payment.id p) paymentId) as [E|E]; simpl;
      repeat split; trivial; try congruence.
    intro Hpaid. now apply withStatus_paid_id.
  - unfold markPaymentAsPaid. simpl. rewrite map_map.
    f_equal. f_equal. apply map_ext. intro p. apply markOne_idem.
  - intro H. destruct s as [ts ps ss]. unfold markPaymentAsPaid. simpl in *.
    f_equal. now apply map_markOne_fixed.
Qed.

(** ** Paid payments along a run *)

Lemma run_cons (e : Event) (events : list Event) (s : Store) :
  run (e :: events) s = run events (storeAfter s (dispatch e s)).
Proof. reflexivity. Qed.

Lemma markPaid_never_fails (paymentId : string) (s : Store) :
  dispatch (ClickMarkPaid paymentId) s
  = Submitted (fst (markPaymentAsPaid paymentId s)) paidToast.
Proof. reflexivity. Qed.



(** No event moves a stored payment to pending or overdue: after any event
    the payment at a position has the id it had, and the status it had or
    paid. *)
Lemma step_status_only_towards_paid (e : Event) (s : Store) (i : nat) (p : Payment) :
  nth_error (rev (payments s)) i = Some p ->
  exists p',
    nth_error (rev (payments (storeAfter s (dispatch e s)))) i = Some p'
    /\ Payment.id p' = Payment.id p
    /\ (Payment.status p' = Payment.status p \/ Payment.status p' = paid).
Proof.
  intro Hi. destruct e as [now raw|now raw|now raw|paymentId];
    unfold dispatch, handleSubmit.
  - exists p. destruct (transactionSchema raw); auto.
  - exists p. destruct (shiftSchema raw); auto.
  - exists p. destruct (paymentSchema raw) as [errors|data]; [auto|].
    cbn [addPayment storeAfter payments rev].
    rewrite nth_error_app1; [auto|]. apply nth_error_Some. congruence.
  - exists (markOne paymentId p).
    change (nth_error (rev (map (markOne paymentId) (payments s))) i
            = Some (markOne paymentId p)
            /\ Payment.id (markOne paymentId p) = Payment.id p
            /\ (Payment.status (markOne paymentId p) = Payment.status p
                \/ Payment.status (markOne paymentId p) = paid)).
    rewrite <- map_rev, nth_error_map, Hi. split; [reflexivity|].
    unfold markOne. destruct (String.eqb _ _); simpl; auto.
Qed.



(** ** Marking an unknown id *)

(** C7, as the code has it: when no payment has the given id, marking it as
    paid is accepted with the success toast and the store is unchanged. *)
Theorem C7_unknown_id_accepted_store_unchanged :
  forall (paymentId : string) (s : Store),
    ~ In paymentId (map Payment.id (payments s)) ->
    dispatch (ClickMarkPaid paymentId) s = Submitted s paidToast
    /\ failed (dispatch (ClickMarkPaid paymentId) s) = false.
Proof.
  intros paymentId s Hnot. split; [|reflexivity].
  rewrite markPaid_never_fails. f_equal.
  destruct s as [ts ps ss]. unfold markPaymentAsPaid. simpl in *. f_equal.
  apply map_markOne_fixed. intros p Hp E. exfalso. apply Hnot.
  rewrite <- E. now apply in_map.
Qed.

Lemma C7_unknown_id_accepted_witness :
  ~ In "99" (map Payment.id (payments initialStore))
  /\ dispatch (ClickMarkPaid "99") initialStore = Submitted initialStore paidToast.
Proof.
  assert (~ In "99" (map Payment.id (payments initialStore))) as Hnot.
  { simpl. intros [H|[H|[H|[H|[]]]]]; discriminate. }
  split; [exact Hnot|].
  exact (proj1 (C7_unknown_id_accepted_store_unchanged "99" initialStore Hnot)).
Defined.

(** C7, the refused part: for an id that no payment has, the request is not
    refused: it is reported as done. *)
Lemma C7_unknown_id_not_refused :
  ~ In "99" (map Payment.id (payments initialStore))
  /\ failed (dispatch (ClickMarkPaid "99") initialStore) = false
  /\ dispatch (ClickMarkPaid "99") initialStore
     = Submitted initialStore (mkToast "Платеж отмечен как оплаченный!" None).
Proof.
  split; [simpl; intros [H|[H|[H|[H|[]]]]]; discriminate|].
  split; reflexivity.
Qed.

(** ** Submitting a payment *)

Lemma paymentType_enum_inr (v : option string) (ty : PaymentType) :
  z_enum [("recurring", recurring); ("credit", credit); ("debt", debt)] "type" v = inr ty
  -> (v = Some "recurring" /\ ty = recurring)
     \/ (v = Some "credit" /\ ty = credit)
     \/ (v = Some "debt" /\ ty = debt).
Proof.
  unfold z_enum. destruct v as [s|]; [|discriminate].
  cbn [find fst snd].
  destruct (String.eqb_spec "recurring" s) as [E|_];
    [subst s; intro H; injection H as <-; auto|].
  destruct (String.eqb_spec "credit" s) as [E|_];
    [subst s; intro H; injection H as <-; auto|].
  destruct (String.eqb_spec "debt" s) as [E|_];
    [subst s; intro H; injection H as <-; auto|].
  discriminate.
Qed.

(** What [paymentSchema] lets through, field by field. *)
Lemma paymentSchema_inr (raw : PaymentInput.t) (data : PaymentForm.t) :
  paymentSchema raw = inr data ->
  (PaymentInput.name raw = Some (PaymentForm.name data) /\ PaymentForm.name data <> "")
  /\ (PaymentInput.amount raw = NumValue (PaymentForm.amount data)
      /\ is_nan (PaymentForm.amount data) = false
      /\ (1 <=? PaymentForm.amount data)%float = true)
  /\ PaymentInput.dueDate raw = DateValue (PaymentForm.dueDate data)
  /\ ((PaymentInput.type raw = Some "recurring" /\ PaymentForm.type data = recurring)
      \/ (PaymentInput.type raw = Some "credit" /\ PaymentForm.type data = credit)
      \/ (PaymentInput.type raw = Some "debt" /\ PaymentForm.type data = debt)).
Proof.
  unfold paymentSchema. destruct data as [n a d ty]. simpl.
  destruct (z_string_min1 _ "name" _) as [|n'] eqn:En; [destruct
    (z_number_min1 _ "amount" _), (z_date "dueDate" _), (z_enum _ "type" _); discriminate|].
  destruct (z_number_min1 _ "amount" _) as [|a'] eqn:Ea; [destruct
    (z_date "dueDate" _), (z_enum _ "type" _); discriminate|].
  destruct (z_date "dueDate" _) as [|d'] eqn:Ed; [destruct (z_enum _ "type" _); discriminate|].
  destruct (z_enum _ "type" _) as [|ty'] eqn:Et; [discriminate|].
  intro H. injection H as -> -> -> ->.
  apply z_string_min1_inr in En. apply z_number_min1_inr in Ea.
  apply z_date_inr in Ed. apply paymentType_enum_inr in Et. auto.
Qed.

(** C8: for every payment candidate that passes the schema, [addPayment]
    stores a payment with the candidate's name, amount, due date and type
    and with status pending, whatever the candidate holds, in front of the
    payments already stored; the other collections are untouched. *)
Theorem C8_addPayment_status_pending :
  forall (now : Z) (raw : PaymentInput.t) (data : PaymentForm.t) (s : Store),
    paymentSchema raw = inr data ->
    (exists t : Toast,
        dispatch (SubmitPayment now raw) s
        = Submitted
            (mkStore (transactions s)
               (Payment.mk (toString now) (PaymentForm.name data) (PaymentForm.amount data)
                  (PaymentForm.dueDate data) pending (PaymentForm.type data)
                :: payments s)
               (shifts s))
            t)
    /\ (exists p : Payment,
           payments (fst (addPayment now data s)) = p :: payments s
           /\ Payment.status p = pending
           /\ PaymentInput.name raw = Some (Payment.name p)
           /\ PaymentInput.amount raw = NumValue (Payment.amount p)
           /\ PaymentInput.dueDate raw = DateValue (Payment.dueDate p)).
Proof.
  intros now raw data s H. split.
  - unfold dispatch, handleSubmit. rewrite H. simpl. eexists. reflexivity.
  - apply paymentSchema_inr in H. destruct H as ([Hn _] & [Ha _] & Hd & _).
    eexists. split; [reflexivity|]. simpl. auto.
Qed.

Lemma C8_addPayment_status_pending_witness :
  paymentSchema rent = inr (PaymentForm.mk "rent" 30000%float (newDate 2025 3 1) recurring)
  /\ exists t : Toast,
      dispatch (SubmitPayment 1738000000000 rent) initialStore
      = Submitted
          (mkStore seedTransactions
             (Payment.mk "1738000000000" "rent" 30000%float (newDate 2025 3 1)
                pending recurring
              :: seedPayments)
             seedShifts)
          t.
Proof.
  split; [reflexivity|].
  exact (proj1 (C8_addPayment_status_pending 1738000000000 rent
                  (PaymentForm.mk "rent" 30000%float (newDate 2025 3 1) recurring)
                  initialStore eq_refl)).
Defined.

(** ** Ids *)

Lemma toString_inj : Injective toString.
Proof.
  intros a b H. unfold toString in H.
  apply DecimalZ.to_int_inj.
  assert (Some (Z.to_int a) = Some (Z.to_int b)) as E
    by (rewrite <- !NilEmpty.isi; now rewrite H).
  now injection E.
Qed.

Lemma markOne_id (paymentId : string) (p : Payment) :
  Payment.id (markOne paymentId p) = Payment.id p.
Proof. unfold markOne. destruct (String.eqb _ _); reflexivity. Qed.

Lemma ids_initialStore (c : Collection) : ids c initialStore = map toString seedIds.
Proof. destruct c; reflexivity. Qed.

(** One event puts at most one id in front of a collection. *)
Lemma ids_step (c : Collection) (e : Event) (s : Store) :
  ids c (storeAfter s (dispatch e s)) = map toString (clocks c [e]) ++ ids c s.
Proof.
  destruct e as [now raw|now raw|now raw|paymentId];
    unfold clocks, dispatch, handleSubmit; cbn [flat_map addedTo].
  - destruct (transactionSchema raw); destruct c; reflexivity.
  - destruct (shiftSchema raw); destruct c; reflexivity.
  - destruct (paymentSchema raw); destruct c; reflexivity.
  - destruct c; try reflexivity.
    change (map Payment.id (map (markOne paymentId) (payments s))
            = map Payment.id (payments s)).
    rewrite map_map. apply map_ext. apply markOne_id.
Qed.

Lemma clocks_app (c : Collection) (l1 l2 : list Event) :
  clocks c (l1 ++ l2) = clocks c l1 ++ clocks c l2.
Proof. apply flat_map_app. Qed.

Lemma run_app (l1 l2 : list Event) (s : Store) :
  run (l1 ++ l2) s = run l2 (run l1 s).
Proof. apply fold_left_app. Qed.

(** The ids of a collection are the clock readings of its adds, newest
    first, followed by the ids it started with. *)
Lemma ids_run (c : Collection) (events : list Event) (s : Store) :
  ids c (run events s) = map toString (rev (clocks c events)) ++ ids c s.
Proof.
  revert s. induction events as [|e events IH]; intro s; [reflexivity|].
  rewrite run_cons, IH, ids_step.
  change (e :: events) with ([e] ++ events).
  rewrite clocks_app, rev_app_distr, map_app, <- app_assoc.
  f_equal. f_equal. unfold clocks. cbn [flat_map].
  rewrite app_nil_r. destruct (addedTo e) as [[c' now]|]; [|reflexivity].
  destruct (Collection_eqb c c'); reflexivity.
Qed.

Lemma ids_NoDup (c : Collection) (events : list Event) :
  NoDup (clocks c events) ->
  (forall n, In n (clocks c events) -> ~ In n seedIds) ->
  NoDup (ids c (run events initialStore)).
Proof.
  intros Hnd Hseed. rewrite ids_run, ids_initialStore, <- map_app.
  apply Injective_map_NoDup; [exact toString_inj|].
  apply NoDup_app.
  - now apply NoDup_rev.
  - unfold seedIds. repeat constructor; simpl; intuition discriminate.
  - intros n Hn. apply Hseed. now apply in_rev.
Qed.

(** C9, as the code has it: the id of a newly stored record is the decimal
    text of the clock reading taken when it is added; the record goes in
    front of its collection, and its id differs from the ids of every
    record already there whenever that reading differs from the readings
    of the earlier adds to the collection and from the seed ids 1 to 4. *)
Theorem C9_id_fresh_when_clock_reading_new :
  forall (c : Collection) (events : list Event) (e : Event) (now : Z),
    addedTo e = Some (c, now) ->
    ~ In now (clocks c events) ->
    ~ In now seedIds ->
    ids c (run (events ++ [e]) initialStore)
    = toString now :: ids c (run events initialStore)
    /\ ~ In (toString now) (ids c (run events initialStore)).
Proof.
  intros c events e now He Hnew Hseed. split.
  - rewrite run_app. change (run [e] ?s) with (storeAfter s (dispatch e s)).
    rewrite ids_step. unfold clocks. cbn [flat_map]. rewrite He.
    replace (Collection_eqb c c) with true by (destruct c; reflexivity).
    reflexivity.
  - rewrite ids_run, ids_initialStore, <- map_app, in_map_iff.
    intros [n [En Hin]]. apply toString_inj in En. subst n.
    apply in_app_or in Hin. destruct Hin as [Hin|Hin]; [|exact (Hseed Hin)].
    apply Hnew. now apply in_rev.
Qed.

Lemma C9_id_fresh_witness :
  addedTo (SubmitPayment 1738000000002 rent) = Some (Payments, 1738000000002)
  /\ ~ In 1738000000002
         (clocks Payments [SubmitPayment 1738000000000 rent;
                           SubmitTransaction 1738000000002 (coffee 1%float)])
  /\ ~ In 1738000000002 seedIds
  /\ ~ In (toString 1738000000002)
         (ids Payments (run [SubmitPayment 1738000000000 rent;
                             SubmitTransaction 1738000000002 (coffee 1%float)]
                          initialStore)).
Proof.
  assert (~ In 1738000000002
            (clocks Payments [SubmitPayment 1738000000000 rent;
                              SubmitTransaction 1738000000002 (coffee 1%float)])) as H1.
  { vm_compute. intros [H|[]]. discriminate. }
  assert (~ In 1738000000002 seedIds) as H2.
  { unfold seedIds. simpl. intuition discriminate. }
  split; [reflexivity|]. split; [exact H1|]. split; [exact H2|].
  exact (proj2 (C9_id_fresh_when_clock_reading_new Payments
                  [SubmitPayment 1738000000000 rent;
                   SubmitTransaction 1738000000002 (coffee 1%float)]
                  (SubmitPayment 1738000000002 rent) 1738000000002 eq_refl H1 H2)).
Defined.

(** C9, the refused part: two payments submitted at the same clock reading
    get the same id, and a record added at clock reading 1 gets the id of a
    seed record. *)
Lemma C9_same_clock_reading_same_id :
  payments (run [SubmitPayment 1738000000000 rent; SubmitPayment 1738000000000 rent]
              initialStore)
  = Payment.mk "1738000000000" "rent" 30000%float (newDate 2025 3 1) pending recurring
    :: payments (run [SubmitPayment 1738000000000 rent] initialStore)
  /\ In "1738000000000"
       (map Payment.id (payments (run [SubmitPayment 1738000000000 rent] initialStore)))
  /\ payments (run [SubmitPayment 1 rent] initialStore)
     = Payment.mk "1" "rent" 30000%float (newDate 2025 3 1) pending recurring
       :: payments initialStore
  /\ In "1" (map Payment.id (payments initialStore)).
Proof.
  split; [reflexivity|]. split; [left; reflexivity|].
  split; [reflexivity|]. left; reflexivity.
Qed.

(** * Further properties of the handlers and the derived views *)

(** ** Submitting a shift *)

Lemma z_number_optional_inr (path : string) (v : NumberInput) (o : option float) :
  z_number_optional path v = inr o <-> optionalNumber v o.
Proof.
  unfold z_number_optional, optionalNumber. destruct v as [|x].
  - split; [intro H; injection H as <-; auto|].
    intros [[_ ->]|(n & H & _)]; [reflexivity | discriminate].
  - destruct (is_nan x) eqn:N.
    + split; [discriminate|].
      intros [[H _]|(n & H & Hn & _)]; [discriminate|].
      injection H as <-. congruence.
    + split; [intro H; injection H as <-; right; exists x; auto|].
      intros [[H _]|(n & H & _ & ->)]; [discriminate|]. now injection H as <-.
Qed.

(** What [shiftSchema] accepts: a valid date, hours and a rate of at least
    1, and a bonus and deductions that are absent or any number but NaN,
    negative numbers included. *)
Theorem shiftSchema_accepts (raw : ShiftInput.t) (data : ShiftForm.t) :
  shiftSchema raw = inr data
  <-> ShiftInput.date raw = DateValue (ShiftForm.date data)
      /\ (ShiftInput.hours raw = NumValue (ShiftForm.hours data)
          /\ is_nan (ShiftForm.hours data) = false
          /\ (1 <=? ShiftForm.hours data)%float = true)
      /\ (ShiftInput.hourlyRate raw = NumValue (ShiftForm.hourlyRate data)
          /\ is_nan (ShiftForm.hourlyRate data) = false
          /\ (1 <=? ShiftForm.hourlyRate data)%float = true)
      /\ optionalNumber (ShiftInput.bonus raw) (ShiftForm.bonus data)
      /\ optionalNumber (ShiftInput.deductions raw) (ShiftForm.deductions data).
Proof.
  rewrite <- (z_date_inr "date").
  rewrite <- (z_number_min1_inr "Часы должны быть больше 0" "hours").
  rewrite <- (z_number_min1_inr "Ставка должна быть больше 0" "hourlyRate").
  rewrite <- (z_number_optional_inr "bonus").
  rewrite <- (z_number_optional_inr "deductions").
  unfold shiftSchema. destruct data as [da h r b de]. simpl.
  destruct (z_date "date" _), (z_number_min1 _ "hours" _),
    (z_number_min1 _ "hourlyRate" _), (z_number_optional "bonus" _),
    (z_number_optional "deductions" _);
    (split; [intro H; try discriminate; injection H as <- <- <- <- <-; auto
            | intros (H1 & H2 & H3 & H4 & H5); try discriminate; congruence]).
Qed.



(** A bonus field that holds NaN (an empty number input) makes the whole
    shift invalid, whatever the other fields hold: nothing is stored. *)
Theorem submitShift_nan_bonus_rejected :
  forall (now : Z) (raw : ShiftInput.t) (s : Store),
    ShiftInput.bonus raw = NumValue nan ->
    failed (dispatch (SubmitShift now raw) s) = true
    /\ storeAfter s (dispatch (SubmitShift now raw) s) = s
    /\ exists errors : list ZodIssue,
        dispatch (SubmitShift now raw) s = Invalid errors
        /\ In (mkIssue "bonus" invalid_type None) errors.
Proof.
  intros now raw s Hb. unfold dispatch, handleSubmit.
  destruct (shiftSchema raw) as [errors|data] eqn:E.
  - split; [reflexivity|]. split; [reflexivity|]. exists errors. split; [reflexivity|].
    unfold shiftSchema in E. rewrite Hb in E. simpl in E.
    destruct (z_date "date" _), (z_number_min1 _ "hours" _),
      (z_number_min1 _ "hourlyRate" _), (z_number_optional "deductions" _);
      injection E as <-; simpl; auto 10.
  - exfalso. unfold shiftSchema in E. rewrite Hb in E. simpl in E.
    destruct (z_date "date" _), (z_number_min1 _ "hours" _),
      (z_number_min1 _ "hourlyRate" _), (z_number_optional "deductions" _);
      discriminate.
Qed.

Lemma submitShift_nan_bonus_rejected_witness :
  ShiftInput.bonus (nightShift (NumValue nan)) = NumValue nan
  /\ failed (dispatch (SubmitShift 1738000000000 (nightShift (NumValue nan))) initialStore)
     = true.
Proof.
  split; [reflexivity|].
  exact (proj1 (submitShift_nan_bonus_rejected 1738000000000 (nightShift (NumValue nan))
                  initialStore eq_refl)).
Defined.

(** ** Pay periods and notifications as the store changes *)

Section DerivedViews.

Variable getDate : Date -> Z.
Variable differenceInDays : Date -> Date -> Z.

(** Every shift is counted in exactly one of the two pay periods, whatever
    day of the month the runtime reports for it. *)
Theorem salaryPeriods_count (shifts : list Shift) :
  (List.length (salaryPeriod1 getDate shifts) + List.length (salaryPeriod2 getDate shifts)
   = List.length shifts)%nat.
Proof.
  unfold salaryPeriod1, salaryPeriod2.
  induction shifts as [|s l IH]; [reflexivity|]. cbn [filter].
  assert ((getDate (Shift.date s) >=? 30) || (getDate (Shift.date s) <=? 14)
          = negb ((getDate (Shift.date s) >=? 15) && (getDate (Shift.date s) <=? 29))) as E.
  { rewrite !Z.geb_leb.
    destruct (Z.leb_spec 30 (getDate (Shift.date s)));
      destruct (Z.leb_spec (getDate (Shift.date s)) 14);
      destruct (Z.leb_spec 15 (getDate (Shift.date s)));
      destruct (Z.leb_spec (getDate (Shift.date s)) 29); simpl; trivial; lia. }
  rewrite E.
  destruct ((getDate (Shift.date s) >=? 15) && (getDate (Shift.date s) <=? 29));
    cbn [negb List.length]; lia.
Qed.




End DerivedViews.


(** ** What a run of events can and cannot do to the store *)

Lemma step_transactions_shifts (e : Event) (s : Store) :
  (exists added, transactions (storeAfter s (dispatch e s)) = added ++ transactions s
                 /\ map Transaction.id added = map toString (clocks Transactions [e]))
  /\ (exists added, shifts (storeAfter s (dispatch e s)) = added ++ shifts s
                    /\ map Shift.id added = map toString (clocks Shifts [e])).
Proof.
  destruct e as [now raw|now raw|now raw|paymentId];
    unfold clocks, dispatch, handleSubmit; cbn [flat_map addedTo].
  - destruct (transactionSchema raw) as [errors|data]; split;
      try (exists []; split; reflexivity).
    eexists [_]. split; reflexivity.
  - destruct (shiftSchema raw) as [errors|data]; split;
      try (exists []; split; reflexivity).
    eexists [_]. split; reflexivity.
  - destruct (paymentSchema raw) as [errors|data]; split;
      exists []; split; reflexivity.
  - split; exists []; split; reflexivity.
Qed.

Lemma clocks_single_rev (c : Collection) (e : Event) :
  rev (clocks c [e]) = clocks c [e].
Proof.
  unfold clocks. cbn [flat_map]. rewrite app_nil_r.
  destruct (addedTo e) as [[c' now]|]; [|reflexivity].
  destruct (Collection_eqb c c'); reflexivity.
Qed.

(** Transactions and shifts are never edited, reordered or removed: after
    any run of events each of the two collections is what it was, with the
    records added by the accepted forms in front, newest first, their ids
    being the clock readings of those submissions. *)
Theorem run_keeps_transactions_and_shifts (events : list Event) (s : Store) :
  (exists added, transactions (run events s) = added ++ transactions s
                 /\ map Transaction.id added
                    = map toString (rev (clocks Transactions events)))
  /\ (exists added, shifts (run events s) = added ++ shifts s
                    /\ map Shift.id added = map toString (rev (clocks Shifts events))).
Proof.
  revert s. induction events as [|e events IH]; intro s.
  - split; exists []; split; reflexivity.
  - rewrite run_cons.
    destruct (IH (storeAfter s (dispatch e s))) as [(at1 & Ht1 & Hi1) (as1 & Hs1 & Hj1)].
    destruct (step_transactions_shifts e s) as [(at0 & Ht0 & Hi0) (as0 & Hs0 & Hj0)].
    change (e :: events) with ([e] ++ events).
    rewrite !clocks_app, !rev_app_distr, !map_app, !clocks_single_rev.
    split.
    + exists (at1 ++ at0). rewrite Ht1, Ht0, app_assoc.
      split; [reflexivity|]. rewrite map_app. f_equal; assumption.
    + exists (as1 ++ as0). rewrite Hs1, Hs0, app_assoc.
      split; [reflexivity|]. rewrite map_app. f_equal; assumption.
Qed.

(** Marking two payments as paid gives the same store in either order. *)
Theorem markPaymentAsPaid_commutes (a b : string) (s : Store) :
  fst (markPaymentAsPaid a (fst (markPaymentAsPaid b s)))
  = fst (markPaymentAsPaid b (fst (markPaymentAsPaid a s))).
Proof.
  unfold markPaymentAsPaid. cbn [fst transactions payments shifts].
  f_equal. rewrite !map_map. apply map_ext. intro p.
  fold (markOne b p). fold (markOne a p).
  change (markOne a (markOne b p) = markOne b (markOne a p)).
  unfold markOne.
  destruct (String.eqb (Payment.id p) a) eqn:Ea;
    destruct (String.eqb (Payment.id p) b) eqn:Eb;
    cbn [Payment.withStatus Payment.id]; rewrite ?Ea, ?Eb; reflexivity.
Qed.

Lemma step_overdue (e : Event) (s : Store) :
  (forall p, In p (payments s) -> Payment.status p = overdue -> p = seedPayment3) ->
  forall p, In p (payments (storeAfter s (dispatch e s))) ->
            Payment.status p = overdue -> p = seedPayment3.
Proof.
  intro Inv. destruct e as [now raw|now raw|now raw|paymentId];
    unfold dispatch, handleSubmit.
  - destruct (transactionSchema raw); exact Inv.
  - destruct (shiftSchema raw); exact Inv.
  - destruct (paymentSchema raw) as [errors|data]; [exact Inv|].
    cbn [addPayment storeAfter payments]. intros p [<-|Hin] Hs;
      [discriminate | now apply Inv].
  - change (forall p, In p (map (markOne paymentId) (payments s)) ->
                      Payment.status p = overdue -> p = seedPayment3).
    intros p Hin Hs. apply in_map_iff in Hin. destruct Hin as (q & <- & Hq).
    unfold markOne in *. destruct (String.eqb (Payment.id q) paymentId);
      [discriminate | now apply Inv].
Qed.

(** No payment ever becomes overdue: in every state reached from the seed
    data the only overdue payment, if any, is the seed payment that was
    overdue from the start. *)
Theorem overdue_only_from_seed :
  forall (events : list Event) (p : Payment),
    In p (payments (run events initialStore)) ->
    Payment.status p = overdue ->
    p = seedPayment3.
Proof.
  intro events.
  assert (forall s,
             (forall p, In p (payments s) -> Payment.status p = overdue -> p = seedPayment3) ->
             forall p, In p (payments (run events s)) ->
                       Payment.status p = overdue -> p = seedPayment3) as Hrun.
  { induction events as [|e events IH]; intros s Inv; [exact Inv|].
    rewrite run_cons. apply IH. now apply step_overdue. }
  apply Hrun. intros p [<-|[<-|[<-|[<-|[]]]]] Hs; try discriminate. reflexivity.
Qed.

Lemma overdue_only_from_seed_witness :
  In seedPayment3
    (payments (run [SubmitPayment 1738000000000 rent; ClickMarkPaid "1"] initialStore))
  /\ Payment.status seedPayment3 = overdue
  /\ seedPayment3 = seedPayment3.
Proof.
  assert (In seedPayment3
            (payments (run [SubmitPayment 1738000000000 rent; ClickMarkPaid "1"]
                         initialStore))) as Hin.
  { right. right. right. left. reflexivity. }
  split; [exact Hin|]. split; [reflexivity|].
  exact (overdue_only_from_seed [SubmitPayment 1738000000000 rent; ClickMarkPaid "1"]
           seedPayment3 Hin eq_refl).
Defined.
